(** * scrapy_selenium.middlewares: the [SeleniumMiddleware] downloader middleware

    The middleware is glue code: every line either tests a Python value or
    calls into a library (importlib, selenium, zipfile, scrapy).  The
    embedding keeps the two apart.  A method is a tree of calls ([prog]):
    a node is one library call, its children are indexed by what the call
    answers (a value or an exception), a leaf is a [return] or a [raise].
    The libraries are an oracle ([Env]) that [run] consults call by call;
    what the middleware itself owns (the [meta] dict of each request, the
    archive it writes to disk) is state of the interpreter. *)

From stdpp Require Import base gmap strings list pretty.
From Stdlib Require Import QArith.
From Stdlib.Strings Require Import Byte Ascii.

Local Open Scope Z_scope.

(** ** Python values *)

(** The scalar values a setting holds; [PyNone] is also what
    [settings.get] answers for a key that is not set. *)
Inductive pyval : Type :=
| PyNone
| PyBool (b : bool)
| PyInt (z : Z)
| PyStr (s : string).

(** [bool(v)]: the test of [if v:]. *)
Definition truthy (v : pyval) : bool :=
  match v with
  | PyNone => false
  | PyBool b => b
  | PyInt z => negb (z =? 0)
  | PyStr s => negb (String.eqb s "")
  end.

(** [v is None]. *)
Definition is_None (v : pyval) : bool :=
  match v with PyNone => true | _ => false end.

(** [str(v)], which is what an f-string field and a [%s] directive insert. *)
Definition py_str (v : pyval) : string :=
  match v with
  | PyNone => "None"
  | PyBool true => "True"
  | PyBool false => "False"
  | PyInt z => pretty z
  | PyStr s => s
  end.

(** A reference to an object that lives in a library: a module, a class, an
    options object, a driver, a wait condition. *)
Definition pyobj : Type := nat.

(** A keyword argument is a value or an object. *)
Inductive pyarg : Type :=
| ArgVal (v : pyval)
| ArgObj (o : pyobj).

(** What a key of [request.meta] holds. *)
Inductive metaval : Type :=
| MetaBytes (b : list byte)
| MetaObj (o : pyobj)
| MetaVal (v : pyval).

(** ** Exceptions *)

(** Exceptions raised inside a library call. *)
Inductive lib_exn : Type :=
| ModuleNotFoundError
| MissingAttribute
| ValueError
| OSError
| WebDriverException
| TimeoutException
| OtherError (name : string).

(** Exceptions as the caller of the middleware sees them: the ones the
    middleware's own lines raise, and the library's, which no line catches. *)
Inductive exn : Type :=
| NotConfigured (msg : string)
| TypeError (msg : string)
| AttributeError (msg : string)
| UnicodeEncodeError
| Lib (e : lib_exn).

Inductive result (E A : Type) : Type :=
| Ok (a : A)
| Err (e : E).
Arguments Ok {E A} a.
Arguments Err {E A} e.

(** ** The middleware object *)

(** [self]: the one attribute [__init__] may set.  [None] is an object on
    which [self.driver] was never assigned. *)
Record SeleniumMiddleware : Type := { driver : option pyobj }.

(** ** Library calls *)

(** One constructor per call the middleware makes, indexed by the type of the
    answer.  The last two are the writes to a request's [meta] dict. *)
Inductive op : Type -> Type :=
| import_module (name : string) : op pyobj
| getattr (o : pyobj) (attr : string) : op pyobj
| instantiate (klass : pyobj) (kwargs : list (string * pyarg)) : op pyobj
| set_binary_location (options : pyobj) (path : pyval) : op unit
| add_argument (options : pyobj) (argument : string) : op unit
| add_extension (options : pyobj) (file : string) : op unit
| to_capabilities (options : pyobj) : op pyobj
| webdriver_Remote (command_executor : pyval) (desired_capabilities : pyobj) : op pyobj
| ZipFile (file mode : string) : op unit
| zip_writestr (file name data : string) : op unit
| zip_close (file : string) : op unit
| signals_connect (receiver : SeleniumMiddleware) (signal : string) : op unit
| driver_get (driver : pyobj) (url : string) : op unit
| driver_add_cookie (driver : pyobj) (name value : string) : op unit
| WebDriverWait_until (driver : pyobj) (timeout : Q) (method : pyobj) : op unit
| get_screenshot_as_png (driver : pyobj) : op (list byte)
| execute_script (driver : pyobj) (script : string) : op unit
| page_source (driver : pyobj) : op (list N)
| current_url (driver : pyobj) : op string
| driver_quit (driver : pyobj) : op unit
| meta_setitem (request : nat) (key : string) (v : metaval) : op unit
| meta_update (request : nat) (items : list (string * metaval)) : op unit.

(** ** Programs *)

Inductive prog (A : Type) : Type :=
| Ret (a : A)
| Raise (e : exn)
| Vis {X : Type} (o : op X) (k : result lib_exn X -> prog A).
Arguments Ret {A} a.
Arguments Raise {A} e.
Arguments Vis {A X} o k.

Fixpoint bind {A B : Type} (p : prog A) (f : A -> prog B) : prog B :=
  match p with
  | Ret a => f a
  | Raise e => Raise e
  | Vis o k => Vis o (fun r => bind (k r) f)
  end.

(** A call outside any [try]: its exception is the caller's. *)
Definition call {X : Type} (o : op X) : prog X :=
  Vis o (fun r => match r with Ok x => Ret x | Err e => Raise (Lib e) end).

(** [try: p finally: q], which is also what a [with] block does with its
    [__exit__]: [q] runs however [p] ends, and an exception of [q] replaces
    the outcome of [p]. *)
Fixpoint finally {A : Type} (p : prog A) (q : prog unit) : prog A :=
  match p with
  | Ret a => bind q (fun _ => Ret a)
  | Raise e => bind q (fun _ => Raise e)
  | Vis o k => Vis o (fun r => finally (k r) q)
  end.

(** [for x in l: body x]. *)
Fixpoint for_each {X : Type} (l : list X) (body : X -> prog unit) : prog unit :=
  match l with
  | [] => Ret tt
  | x :: l' => bind (body x) (fun _ => for_each l' body)
  end.

Declare Scope prog_scope.
Delimit Scope prog_scope with prog.
Bind Scope prog_scope with prog.
Notation "x <- p ;; q" := (bind p (fun x => q))
  (at level 100, p at next level, right associativity) : prog_scope.
Notation "p ;; q" := (bind p (fun _ => q))
  (at level 100, right associativity) : prog_scope.
Local Open Scope prog_scope.

(** ** Running a program against the libraries *)

(** A call that was made, with its answer. *)
Inductive event : Type :=
| Event {X : Type} (o : op X) (r : result lib_exn X).

(** The libraries: the answer to a call, given the calls made so far. *)
Definition Env : Type := forall X : Type, op X -> list event -> result lib_exn X.

(** What the interpreter keeps: the [meta] dict of each request, by the
    identity of the request; the zip archives in the working directory, by
    file name, each the list of its entries (name, data) in the order they
    were written; the library calls made, oldest first. *)
Record World : Type := {
  metas : gmap nat (gmap string metaval);
  files : gmap string (list (string * string));
  log : list event
}.

(** [request.meta]; a request that has no dict yet gets an empty one. *)
Definition meta_of (w : World) (request : nat) : gmap string metaval :=
  default ∅ (metas w !! request).

(** [d.update(items)]. *)
Definition dict_update (d : gmap string metaval) (items : list (string * metaval))
  : gmap string metaval :=
  foldl (fun m kv => <[kv.1 := kv.2]> m) d items.

(** The writes to a [meta] dict happen in the interpreter and cannot fail:
    the answer of such a call, and what it does to the state. *)
Definition internal {X : Type} (o : op X) : option (X * (World -> World)) :=
  match o in op T return option (T * (World -> World)) with
  | meta_setitem request key v => Some (tt, fun w =>
      {| metas := <[request := <[key := v]> (meta_of w request)]> (metas w);
         files := files w; log := log w |})
  | meta_update request items => Some (tt, fun w =>
      {| metas := <[request := dict_update (meta_of w request) items]> (metas w);
         files := files w; log := log w |})
  | _ => None
  end.

(** What a library call that returned has done to the disk.  Opening an
    archive for writing creates it empty or truncates it; [writestr] appends
    an entry. *)
Definition on_disk {X : Type} (o : op X) (fs : gmap string (list (string * string)))
  : gmap string (list (string * string)) :=
  match o with
  | ZipFile file mode =>
      if String.eqb mode "w" then <[file := []]> fs else fs
  | zip_writestr file name data =>
      <[file := default [] (fs !! file) ++ [(name, data)]]> fs
  | _ => fs
  end.

(** One call: a write to a [meta] dict is done here; any other call is
    answered by the libraries and entered in the log, and changes the disk
    if it returned and writes to an archive. *)
Definition step (env : Env) {X : Type} (o : op X) (w : World)
  : result lib_exn X * World :=
  match internal o with
  | Some (x, f) => (Ok x, f w)
  | None =>
      let r := env X o (log w) in
      (r, {| metas := metas w;
             files := match r with Ok _ => on_disk o (files w) | Err _ => files w end;
             log := log w ++ [Event o r] |})
  end.

Fixpoint run {A : Type} (env : Env) (p : prog A) (w : World) : result exn A * World :=
  match p with
  | Ret a => (Ok a, w)
  | Raise e => (Err e, w)
  | Vis o k => let '(r, w') := step env o w in run env (k r) w'
  end.

(** ** The proxy extension *)

(** The double quote, which a string literal here cannot hold. *)
Definition dquote : ascii := ascii_of_nat 34.

(** [s] with every [c] replaced by [d]. *)
Fixpoint replace_char (c d : ascii) (s : string) : string :=
  match s with
  | EmptyString => EmptyString
  | String a s' => String (if Ascii.eqb a c then d else a) (replace_char c d s')
  end.

(** The literal of [manifest_json], from the line break after its opening
    quotes to the indentation before its closing ones; a backquote stands
    for each double quote of the source. *)
Definition manifest_json_text : string := "
            {
                `version`: `1.0.0`,
                `manifest_version`: 2,
                `name`: `Chrome Proxy`,
                `permissions`: [
                    `proxy`,
                    `tabs`,
                    `unlimitedStorage`,
                    `storage`,
                    `<all_urls>`,
                    `webRequest`,
                    `webRequestBlocking`
                ],
                `background`: {
                    `scripts`: [`background.js`]
                },
                `minimum_chrome_version`:`22.0.0`
            }
            ".

Definition manifest_json : string :=
  replace_char "`" dquote manifest_json_text.
Arguments manifest_json : simpl never.

(** The literal that [background_js] is formatted from, its four [%s] in
    place. *)
Definition background_js_template : string := "
            var config = {
                mode: 'fixed_servers',
                rules: {
                    singleProxy: {
                        scheme: 'http',
                        host: '%s',
                        port: parseInt(%s)
                    },
                    bypassList: ['localhost']
                }
            };

            chrome.proxy.settings.set({value: config, scope: 'regular'}, function() {});

            function callbackFn(details) {
                return {
                    authCredentials: {
                        username: '%s',
                        password: '%s'
                    }
                };
            }

            chrome.webRequest.onAuthRequired.addListener(
                callbackFn,
                {urls: ['<all_urls>']},
                ['blocking']
            );
            ".

(** [template % args] for a template whose only directive is [%s] (and
    [%%]), the arguments already rendered by [str].  [None] is the
    [TypeError] of a template and a tuple that do not match, or a directive
    other than these two. *)
Fixpoint percent_format (template : string) (args : list string) : option string :=
  match template with
  | EmptyString =>
      match args with [] => Some EmptyString | _ :: _ => None end
  | String "%" (String "s" rest) =>
      match args with
      | [] => None
      | a :: args' => String.append a <$> percent_format rest args'
      end
  | String "%" (String "%" rest) => String "%" <$> percent_format rest args
  | String "%" _ => None
  | String c rest => String c <$> percent_format rest args
  end.

(** ** [str.encode] *)

Definition byte_of_N (n : N) : byte := default x00 (Byte.of_N n).

(** The UTF-8 bytes of one code point; [None] for a surrogate, which
    [str.encode] refuses with [UnicodeEncodeError] (and for a number that is
    no code point, which no [str] holds). *)
Definition utf8_encode_char (c : N) : option (list byte) :=
  let cont (n : N) : byte := byte_of_N (N.lor 0x80 (N.land n 0x3F)) in
  if (c <? 0x80)%N then Some [byte_of_N c]
  else if (c <? 0x800)%N then
    Some [byte_of_N (N.lor 0xC0 (N.shiftr c 6)); cont c]
  else if (c <? 0x10000)%N then
    if ((0xD800 <=? c) && (c <=? 0xDFFF))%N then None
    else Some [byte_of_N (N.lor 0xE0 (N.shiftr c 12)); cont (N.shiftr c 6); cont c]
  else if (c <? 0x110000)%N then
    Some [byte_of_N (N.lor 0xF0 (N.shiftr c 18)); cont (N.shiftr c 12);
          cont (N.shiftr c 6); cont c]
  else None.

(** [str.encode(s)], a [str] being its code points. *)
Fixpoint str_encode (s : list N) : option (list byte) :=
  match s with
  | [] => Some []
  | c :: s' =>
      match utf8_encode_char c, str_encode s' with
      | Some b, Some bs => Some (b ++ bs)
      | _, _ => None
      end
  end.

(** ** [SeleniumMiddleware.__init__] *)

(** [self.driver]: an attribute that was never assigned is an
    [AttributeError]. *)
Definition self_driver (self : SeleniumMiddleware) : prog pyobj :=
  match driver self with
  | Some d => Ret d
  | None => Raise (AttributeError "'SeleniumMiddleware' object has no attribute 'driver'")
  end.

(** The sequence that [for argument in driver_arguments] walks: [None] is
    not iterable. *)
Definition iterate (driver_arguments : option (list string)) : prog (list string) :=
  match driver_arguments with
  | Some l => Ret l
  | None => Raise (TypeError "'NoneType' object is not iterable")
  end.

(** Lines 54 to 68: the classes of the driver family, and the options
    object with the browser binary and the extra arguments on it.  Answers
    the driver class and the options object. *)
Definition driver_options_setup (driver_name browser_executable_path : pyval)
    (driver_arguments : option (list string)) : prog (pyobj * pyobj) :=
  let webdriver_base_path := "selenium.webdriver." +:+ py_str driver_name in
  driver_klass_module <- call (import_module (webdriver_base_path +:+ ".webdriver"));;
  driver_klass <- call (getattr driver_klass_module "WebDriver");;
  driver_options_module <- call (import_module (webdriver_base_path +:+ ".options"));;
  driver_options_klass <- call (getattr driver_options_module "Options");;
  driver_options <- call (instantiate driver_options_klass []);;
  (if truthy browser_executable_path
   then call (set_binary_location driver_options browser_executable_path)
   else Ret tt);;
  arguments <- iterate driver_arguments;;
  for_each arguments (fun argument => call (add_argument driver_options argument));;
  Ret (driver_klass, driver_options).

Definition plugin_file : string := "proxy_auth_plugin.zip".

(** Line 93 to 122: the background script, the four settings formatted in. *)
Definition background_js (proxy_host proxy_port proxy_user proxy_pass : pyval)
  : option string :=
  percent_format background_js_template
    [py_str proxy_host; py_str proxy_port; py_str proxy_user; py_str proxy_pass].
Arguments background_js : simpl never.

(** Lines 72 to 135, the branch of [if proxy_enabled]. *)
Definition launch_with_proxy (driver_klass driver_options : pyobj)
    (driver_executable_path proxy_host proxy_port proxy_user proxy_pass : pyval)
  : prog SeleniumMiddleware :=
  match background_js proxy_host proxy_port proxy_user proxy_pass with
  | None => Raise (TypeError "not all arguments converted during string formatting")
  | Some background_js =>
      call (ZipFile plugin_file "w");;
      finally
        (call (zip_writestr plugin_file "manifest.json" manifest_json);;
         call (zip_writestr plugin_file "background.js" background_js))
        (call (zip_close plugin_file));;
      call (add_extension driver_options plugin_file);;
      d <- call (instantiate driver_klass
                   [("executable_path", ArgVal driver_executable_path);
                    ("options", ArgObj driver_options)]);;
      Ret {| driver := Some d |}
  end.

(** Lines 138 to 142, the branch of [elif driver_executable_path is not None]. *)
Definition launch_local (driver_klass driver_options : pyobj)
    (driver_executable_path : pyval) : prog SeleniumMiddleware :=
  d <- call (instantiate driver_klass
               [("executable_path", ArgVal driver_executable_path);
                ("options", ArgObj driver_options)]);;
  Ret {| driver := Some d |}.

(** Lines 145 to 147, the branch of [elif command_executor is not None]. *)
Definition launch_remote (driver_options : pyobj) (command_executor : pyval)
  : prog SeleniumMiddleware :=
  capabilities <- call (to_capabilities driver_options);;
  d <- call (webdriver_Remote command_executor capabilities);;
  Ret {| driver := Some d |}.

Definition __init__
    (driver_name driver_executable_path browser_executable_path command_executor : pyval)
    (driver_arguments : option (list string))
    (proxy_enabled proxy_host proxy_port proxy_user proxy_pass : pyval)
  : prog SeleniumMiddleware :=
  classes <- driver_options_setup driver_name browser_executable_path driver_arguments;;
  let '(driver_klass, driver_options) := classes in
  if truthy proxy_enabled then
    launch_with_proxy driver_klass driver_options
      driver_executable_path proxy_host proxy_port proxy_user proxy_pass
  else if negb (is_None driver_executable_path) then
    launch_local driver_klass driver_options driver_executable_path
  else if negb (is_None command_executor) then
    launch_remote driver_options command_executor
  else
    Ret {| driver := None |}.

(** ** [SeleniumMiddleware.from_crawler] *)

(** [crawler.settings], one field per key that [from_crawler] reads, typed as
    the docstring of [__init__] types the parameter it becomes.
    [settings.get] answers [None] for a key that is not set, so a field of a
    key that is not set holds [PyNone] ([None] for the list of arguments). *)
Record Settings : Type := {
  SELENIUM_DRIVER_NAME : pyval;
  SELENIUM_DRIVER_EXECUTABLE_PATH : pyval;
  SELENIUM_BROWSER_EXECUTABLE_PATH : pyval;
  SELENIUM_COMMAND_EXECUTOR : pyval;
  SELENIUM_DRIVER_ARGUMENTS : option (list string);
  SELENIUM_PROXY_ENABLED : pyval;
  SELENIUM_PROXY_HOST : pyval;
  SELENIUM_PROXY_PORT : pyval;
  SELENIUM_PROXY_USER : pyval;
  SELENIUM_PROXY_PASS : pyval
}.

Definition from_crawler (settings : Settings) : prog SeleniumMiddleware :=
  let driver_name := SELENIUM_DRIVER_NAME settings in
  let driver_executable_path := SELENIUM_DRIVER_EXECUTABLE_PATH settings in
  let browser_executable_path := SELENIUM_BROWSER_EXECUTABLE_PATH settings in
  let command_executor := SELENIUM_COMMAND_EXECUTOR settings in
  let driver_arguments := SELENIUM_DRIVER_ARGUMENTS settings in
  let proxy_enabled := SELENIUM_PROXY_ENABLED settings in
  let proxy_host := SELENIUM_PROXY_HOST settings in
  let proxy_port := SELENIUM_PROXY_PORT settings in
  let proxy_user := SELENIUM_PROXY_USER settings in
  let proxy_pass := SELENIUM_PROXY_PASS settings in
  if is_None driver_name then
    Raise (NotConfigured "SELENIUM_DRIVER_NAME must be set")
  else if is_None driver_executable_path && is_None command_executor then
    Raise (NotConfigured
      "Either SELENIUM_DRIVER_EXECUTABLE_PATH or SELENIUM_COMMAND_EXECUTOR must be set")
  else
    middleware <- __init__ driver_name driver_executable_path browser_executable_path
                    command_executor driver_arguments
                    proxy_enabled proxy_host proxy_port proxy_user proxy_pass;;
    call (signals_connect middleware "spider_closed");;
    Ret middleware.

(** ** Requests and responses *)

(** Modelled from the spec: the module [http.py] that declares
    [SeleniumRequest] is not among the sources.  The spec gives a directive
    request [wait_time] (numeric seconds, default 10), [wait_until] (an
    optional condition evaluated against the browser), [screenshot]
    (boolean, default false) and [script] (an optional string of code for
    the browser), beside what it inherits from the base request. *)
Record SeleniumRequest : Type := {
  wait_time : Q;
  wait_until : option pyobj;
  screenshot : bool;
  script : option string
}.

(** A request of the framework: its identity (which names its [meta] dict
    in the [World]), its URL, its cookies in the order of the dict, and the
    directives if it is a [SeleniumRequest]. *)
Record Request : Type := {
  request_id : nat;
  url : string;
  cookies : list (string * string);
  selenium : option SeleniumRequest
}.

(** [isinstance(request, SeleniumRequest)]. *)
Definition isinstance_SeleniumRequest (request : Request) : bool :=
  match selenium request with Some _ => true | None => false end.

(** [scrapy.http.HtmlResponse(url, body=, encoding=, request=)]. *)
Record HtmlResponse : Type := {
  response_url : string;
  response_body : list byte;
  response_encoding : string;
  response_request : Request
}.

(** ** [SeleniumMiddleware.process_request] *)

(** [str.encode(s)] as a statement. *)
Definition encode (s : list N) : prog (list byte) :=
  match str_encode s with
  | Some b => Ret b
  | None => Raise UnicodeEncodeError
  end.

(** The string if it passes [if request.script:]. *)
Definition truthy_script (s : option string) : option string :=
  match s with
  | Some code => if String.eqb code "" then None else Some code
  | None => None
  end.

Definition process_request (self : SeleniumMiddleware) (request : Request)
    (spider : pyobj) : prog (option HtmlResponse) :=
  match selenium request with
  | None => Ret None
  | Some directives =>
      d <- self_driver self;;
      call (driver_get d (url request));;
      for_each (cookies request) (fun cookie =>
        d <- self_driver self;;
        call (driver_add_cookie d cookie.1 cookie.2));;
      match wait_until directives with
      | Some method =>
          d <- self_driver self;;
          call (WebDriverWait_until d (wait_time directives) method)
      | None => Ret tt
      end;;
      (if screenshot directives then
         d <- self_driver self;;
         png <- call (get_screenshot_as_png d);;
         call (meta_setitem (request_id request) "screenshot" (MetaBytes png))
       else Ret tt);;
      match truthy_script (script directives) with
      | Some code =>
          d <- self_driver self;;
          call (execute_script d code)
      | None => Ret tt
      end;;
      d <- self_driver self;;
      source <- call (page_source d);;
      body <- encode source;;
      d <- self_driver self;;
      call (meta_update (request_id request) [("driver", MetaObj d)]);;
      d <- self_driver self;;
      current <- call (current_url d);;
      Ret (Some {| response_url := current;
                   response_body := body;
                   response_encoding := "utf-8";
                   response_request := request |})
  end.

(** ** [SeleniumMiddleware.spider_closed] *)

Definition spider_closed (self : SeleniumMiddleware) : prog unit :=
  d <- self_driver self;;
  call (driver_quit d).

(** ** Stand-ins for the libraries *)

(** The modules of the two driver families the stand-in knows. *)
Definition mock_modules : list string :=
  ["selenium.webdriver.chrome.webdriver"; "selenium.webdriver.chrome.options";
   "selenium.webdriver.firefox.webdriver"; "selenium.webdriver.firefox.options"].

(** A browser that does nothing: every call returns, a new object is
    numbered by the calls made before it, the page is [<p>é</p>] at
    [http://example.com/].  [condition_holds] says whether a wait returns or
    times out. *)
Definition mock_env (condition_holds : bool) : Env := fun X o history =>
  match o in op T return result lib_exn T with
  | import_module name =>
      if existsb (String.eqb name) mock_modules
      then Ok (length history) else Err ModuleNotFoundError
  | getattr _ _ => Ok (length history)
  | instantiate _ _ => Ok (length history)
  | set_binary_location _ _ => Ok tt
  | add_argument _ _ => Ok tt
  | add_extension _ _ => Ok tt
  | to_capabilities _ => Ok (length history)
  | webdriver_Remote _ _ => Ok (length history)
  | ZipFile _ _ => Ok tt
  | zip_writestr _ _ _ => Ok tt
  | zip_close _ => Ok tt
  | signals_connect _ _ => Ok tt
  | driver_get _ _ => Ok tt
  | driver_add_cookie _ _ _ => Ok tt
  | WebDriverWait_until _ _ _ =>
      if condition_holds then Ok tt else Err TimeoutException
  | get_screenshot_as_png _ => Ok [x89; x50; x4e; x47]
  | execute_script _ _ => Ok tt
  | page_source _ => Ok [60; 112; 62; 233; 60; 47; 112; 62]%N
  | current_url _ => Ok "http://example.com/"
  | driver_quit _ => Ok tt
  | meta_setitem _ _ _ => Ok tt
  | meta_update _ _ => Ok tt
  end.

Definition empty_world : World := {| metas := ∅; files := ∅; log := [] |}.

(** Settings for a local Chrome, nothing else set. *)
Definition chrome_settings : Settings := {|
  SELENIUM_DRIVER_NAME := PyStr "chrome";
  SELENIUM_DRIVER_EXECUTABLE_PATH := PyStr "/usr/bin/chromedriver";
  SELENIUM_BROWSER_EXECUTABLE_PATH := PyNone;
  SELENIUM_COMMAND_EXECUTOR := PyNone;
  SELENIUM_DRIVER_ARGUMENTS := Some ["--headless"];
  SELENIUM_PROXY_ENABLED := PyNone;
  SELENIUM_PROXY_HOST := PyNone;
  SELENIUM_PROXY_PORT := PyNone;
  SELENIUM_PROXY_USER := PyNone;
  SELENIUM_PROXY_PASS := PyNone
|}.

(** A request of the base class, and a directive request for the same page. *)
Definition plain_request : Request := {|
  request_id := 1;
  url := "http://example.com/";
  cookies := [("session", "abc")];
  selenium := None
|}.

Definition selenium_request (until : option pyobj) (shot : bool) : Request := {|
  request_id := 2;
  url := "http://example.com/";
  cookies := [("session", "abc")];
  selenium := Some {| wait_time := 10; wait_until := until;
                      screenshot := shot; script := Some "window.scrollTo(0, 1)" |}
|}.

(** The same, with a proxy switched on and no proxy host set. *)
Definition proxy_settings : Settings := {|
  SELENIUM_DRIVER_NAME := PyStr "chrome";
  SELENIUM_DRIVER_EXECUTABLE_PATH := PyStr "/usr/bin/chromedriver";
  SELENIUM_BROWSER_EXECUTABLE_PATH := PyNone;
  SELENIUM_COMMAND_EXECUTOR := PyNone;
  SELENIUM_DRIVER_ARGUMENTS := Some ["--headless"];
  SELENIUM_PROXY_ENABLED := PyBool true;
  SELENIUM_PROXY_HOST := PyNone;
  SELENIUM_PROXY_PORT := PyInt 8080;
  SELENIUM_PROXY_USER := PyStr "scraper";
  SELENIUM_PROXY_PASS := PyStr "s3cret"
|}.

(** Settings for a local Chrome with [SELENIUM_DRIVER_ARGUMENTS] not set. *)
Definition settings_without_arguments : Settings := {|
  SELENIUM_DRIVER_NAME := PyStr "chrome";
  SELENIUM_DRIVER_EXECUTABLE_PATH := PyStr "/usr/bin/chromedriver";
  SELENIUM_BROWSER_EXECUTABLE_PATH := PyNone;
  SELENIUM_COMMAND_EXECUTOR := PyNone;
  SELENIUM_DRIVER_ARGUMENTS := None;
  SELENIUM_PROXY_ENABLED := PyNone;
  SELENIUM_PROXY_HOST := PyNone;
  SELENIUM_PROXY_PORT := PyNone;
  SELENIUM_PROXY_USER := PyNone;
  SELENIUM_PROXY_PASS := PyNone
|}.

(** Settings with nothing set but the browser binary. *)
Definition settings_without_driver : Settings := {|
  SELENIUM_DRIVER_NAME := PyNone;
  SELENIUM_DRIVER_EXECUTABLE_PATH := PyNone;
  SELENIUM_BROWSER_EXECUTABLE_PATH := PyStr "/usr/bin/chromium";
  SELENIUM_COMMAND_EXECUTOR := PyNone;
  SELENIUM_DRIVER_ARGUMENTS := Some [];
  SELENIUM_PROXY_ENABLED := PyNone;
  SELENIUM_PROXY_HOST := PyNone;
  SELENIUM_PROXY_PORT := PyNone;
  SELENIUM_PROXY_USER := PyNone;
  SELENIUM_PROXY_PASS := PyNone
|}.

(** ** Vocabulary of the statements *)

(** Every call a program can make, whatever the libraries answer, is in [C]. *)
Fixpoint all_calls {A : Type} (C : event -> Prop) (p : prog A) : Prop :=
  match p with
  | Ret _ => True
  | Raise _ => True
  | Vis o k => forall r, C (Event o r) /\ all_calls C (k r)
  end.

(** Every way a program can end, whatever the libraries answer, is in [P]. *)
Fixpoint all_ends {A : Type} (P : result exn A -> Prop) (p : prog A) : Prop :=
  match p with
  | Ret a => P (Ok a)
  | Raise e => P (Err e)
  | Vis o k => forall r, all_ends P (k r)
  end.

(** The call that starts a browser: the driver class called with its keyword
    arguments, or [webdriver.Remote]. *)
Definition is_launch (e : event) : bool :=
  match e with
  | Event (instantiate _ (_ :: _)) _ => true
  | Event (webdriver_Remote _ _) _ => true
  | _ => false
  end.


Definition is_NotConfigured {A : Type} (r : result exn A) : bool :=
  match r with
  | Err (NotConfigured _) => true
  | _ => false
  end.

(** The three ways [__init__] starts a browser. *)
Inductive launch : Type :=
| WithProxy
| Local
| Remote.

(** The branch that the [if], [elif], [elif] of lines 71, 137 and 144
    selects: the first whose test passes. *)
Definition launch_branch (proxy_enabled driver_executable_path command_executor : pyval)
  : option launch :=
  if truthy proxy_enabled then Some WithProxy
  else if negb (is_None driver_executable_path) then Some Local
  else if negb (is_None command_executor) then Some Remote
  else None.

(** The text of a template between its [%s] directives. *)
Fixpoint literal_pieces (template : string) : list string :=
  match template with
  | EmptyString => [EmptyString]
  | String "%" (String "s" rest) => EmptyString :: literal_pieces rest
  | String c rest =>
      match literal_pieces rest with
      | p :: ps => String c p :: ps
      | [] => [String c EmptyString]
      end
  end.

(** The pieces with one argument after each but the last. *)
Fixpoint interleave (pieces args : list string) : string :=
  match pieces with
  | [] => EmptyString
  | p :: ps =>
      match args with
      | a :: args' => p +:+ a +:+ interleave ps args'
      | [] => p +:+ interleave ps []
      end
  end.

(** A program that never ends in [NotConfigured]. *)
Definition quiet {A : Type} (p : prog A) : Prop :=
  all_ends (fun r => is_NotConfigured r = false) p.

(** The lines of a branch. *)
Definition start_browser (b : launch) (driver_klass driver_options : pyobj)
    (driver_executable_path command_executor proxy_host proxy_port proxy_user
     proxy_pass : pyval) : prog SeleniumMiddleware :=
  match b with
  | WithProxy =>
      launch_with_proxy driver_klass driver_options
        driver_executable_path proxy_host proxy_port proxy_user proxy_pass
  | Local => launch_local driver_klass driver_options driver_executable_path
  | Remote => launch_remote driver_options command_executor
  end.

(** Construction from settings that passed the two tests of [from_crawler],
    with branch [b] in place of the [if], [elif], [elif]. *)
Definition construct_with (b : launch) (settings : Settings) : prog SeleniumMiddleware :=
  classes <- driver_options_setup (SELENIUM_DRIVER_NAME settings)
               (SELENIUM_BROWSER_EXECUTABLE_PATH settings)
               (SELENIUM_DRIVER_ARGUMENTS settings);;
  middleware <- start_browser b classes.1 classes.2
                  (SELENIUM_DRIVER_EXECUTABLE_PATH settings)
                  (SELENIUM_COMMAND_EXECUTOR settings)
                  (SELENIUM_PROXY_HOST settings) (SELENIUM_PROXY_PORT settings)
                  (SELENIUM_PROXY_USER settings) (SELENIUM_PROXY_PASS settings);;
  call (signals_connect middleware "spider_closed");;
  Ret middleware.

(** On every path of [p], whatever the libraries answer, the number [n] of
    calls in class [c] and the way [p] ends are in [Q]. *)
Fixpoint counted {A : Type} (c : event -> bool) (Q : nat -> result exn A -> Prop)
    (p : prog A) : Prop :=
  match p with
  | Ret a => Q 0%nat (Ok a)
  | Raise e => Q 0%nat (Err e)
  | Vis o k =>
      forall r, counted c (fun n => Q ((if c (Event o r) then 1 else 0) + n)%nat) (k r)
  end.

(** The calls that change what the interpreter keeps beside the log: a write
    to a [meta] dict, and a write to an archive. *)
Definition writes_state (e : event) : bool :=
  match e with
  | Event (meta_setitem _ _ _) _ => true
  | Event (meta_update _ _) _ => true
  | Event (ZipFile _ _) _ => true
  | Event (zip_writestr _ _ _) _ => true
  | _ => false
  end.



(** A program that catches nothing: a call that raises ends it at once with
    the exception of the call, and only a call makes it end with an exception
    of a library. *)
Fixpoint propagates {A : Type} (p : prog A) : Prop :=
  match p with
  | Ret _ => True
  | Raise e => match e with Lib _ => False | _ => True end
  | Vis o k => (forall e, k (Err e) = Raise (Lib e)) /\ forall x, propagates (k (Ok x))
  end.


(** * Properties *)

(** ** Running a sequence *)

Lemma run_bind {A B : Type} (env : Env) (p : prog A) (f : A -> prog B) (w : World) :
  run env (bind p f) w =
  match run env p w with
  | (Ok a, w') => run env (f a) w'
  | (Err e, w') => (Err e, w')
  end.
Proof.
  revert w. induction p as [a | e | X o k IH]; intros w; simpl; try reflexivity.
  destruct (step env o w) as [r w']. apply IH.
Qed.

(** A step adds to the log the call it made, or nothing (a write to a
    [meta] dict). *)
Lemma step_log {X : Type} (env : Env) (o : op X) (w : World) :
  log (step env o w).2 = log w \/
  log (step env o w).2 = log w ++ [Event o (step env o w).1].
Proof. destruct o; simpl; auto. Qed.

Lemma run_all_calls {A : Type} (C : event -> Prop) (env : Env) (p : prog A) (w : World) :
  all_calls C p ->
  exists evs, log (run env p w).2 = log w ++ evs /\ Forall C evs.
Proof.
  revert w. induction p as [a | e | X o k IH]; intros w Hp; simpl.
  - exists []. split; [by rewrite app_nil_r | constructor].
  - exists []. split; [by rewrite app_nil_r | constructor].
  - pose proof (step_log env o w) as Hs.
    destruct (step env o w) as [r w'] eqn:E. simpl in Hs.
    destruct (Hp r) as [Hc Hk].
    destruct (IH r w' Hk) as (evs & Hl & Hf).
    destruct Hs as [Hs | Hs]; rewrite Hs in Hl.
    + by exists evs.
    + exists (Event o r :: evs). split; [by rewrite Hl, <- app_assoc | by constructor].
Qed.

Lemma run_all_ends {A : Type} (P : result exn A -> Prop) (env : Env) (p : prog A) (w : World) :
  all_ends P p -> P (run env p w).1.
Proof.
  revert w. induction p as [a | e | X o k IH]; intros w Hp; simpl; try done.
  destruct (step env o w) as [r w']. apply IH, Hp.
Qed.

Lemma all_calls_bind {A B : Type} (C : event -> Prop) (p : prog A) (f : A -> prog B) :
  all_calls C p -> (forall a, all_calls C (f a)) -> all_calls C (bind p f).
Proof.
  intros Hp Hf. induction p as [a | e | X o k IH]; simpl; try done.
  intros r. destruct (Hp r). split; [done | by apply IH].
Qed.

Lemma all_calls_call {X : Type} (C : event -> Prop) (o : op X) :
  (forall r, C (Event o r)) -> all_calls C (call o).
Proof. intros H r. split; [done | by destruct r]. Qed.

Lemma all_calls_for_each {X : Type} (C : event -> Prop) (l : list X)
    (body : X -> prog unit) :
  (forall x, all_calls C (body x)) -> all_calls C (for_each l body).
Proof.
  intros H. induction l as [| x l IH]; simpl; [done |].
  apply all_calls_bind; [apply H | done].
Qed.

Lemma all_calls_finally {A : Type} (C : event -> Prop) (p : prog A) (q : prog unit) :
  all_calls C p -> all_calls C q -> all_calls C (finally p q).
Proof.
  intros Hp Hq. induction p as [a | e | X o k IH]; simpl.
  - by apply all_calls_bind.
  - by apply all_calls_bind.
  - intros r. destruct (Hp r). split; [done | by apply IH].
Qed.

Lemma all_ends_bind {A B : Type} (P : result exn A -> Prop) (Q : result exn B -> Prop)
    (p : prog A) (f : A -> prog B) :
  all_ends P p ->
  (forall a, P (Ok a) -> all_ends Q (f a)) ->
  (forall e, P (Err e) -> Q (Err e)) ->
  all_ends Q (bind p f).
Proof.
  intros Hp Hf He. induction p as [a | e | X o k IH]; simpl; auto.
Qed.

(** A property of the state that every call of a program keeps still holds
    when the program ends. *)
Lemma run_invariant {A : Type} (I : World -> Prop) (C : event -> Prop) (env : Env)
    (p : prog A) (w : World) :
  (forall X (o : op X) w, C (Event o (step env o w).1) -> I w -> I (step env o w).2) ->
  all_calls C p -> I w -> I (run env p w).2.
Proof.
  intros Hstep. revert w. induction p as [a | e | X o k IH]; intros w Hp Hw; simpl; try done.
  pose proof (Hstep X o w) as Hs.
  destruct (step env o w) as [r w']. destruct (Hp r) as [Hc Hk].
  apply IH; [done | by apply Hs].
Qed.

(** ** Programs that never raise [NotConfigured] *)

Lemma quiet_bind {A B : Type} (p : prog A) (f : A -> prog B) :
  quiet p -> (forall a, quiet (f a)) -> quiet (bind p f).
Proof.
  intros Hp Hf. eapply all_ends_bind; [exact Hp | intros a _; apply Hf |].
  intros e. by destruct e.
Qed.

Lemma quiet_call {X : Type} (o : op X) : quiet (call o).
Proof. intros r. by destruct r. Qed.

Lemma quiet_for_each {X : Type} (l : list X) (body : X -> prog unit) :
  (forall x, quiet (body x)) -> quiet (for_each l body).
Proof.
  intros H. induction l as [| x l IH]; simpl; [done |].
  apply quiet_bind; [apply H | done].
Qed.

Lemma quiet_finally {A : Type} (p : prog A) (q : prog unit) :
  quiet p -> quiet q -> quiet (finally p q).
Proof.
  intros Hp Hq. induction p as [a | e | X o k IH].
  - apply quiet_bind; [done | by intros _].
  - apply quiet_bind; [done | by intros _].
  - intros r. apply IH, Hp.
Qed.

Ltac quiet :=
  repeat first
    [ apply quiet_call
    | apply quiet_bind; [| intros ?]
    | apply quiet_for_each; intros ?
    | apply quiet_finally
    | done ].

Lemma quiet_driver_options_setup driver_name browser_executable_path driver_arguments :
  quiet (driver_options_setup driver_name browser_executable_path driver_arguments).
Proof.
  unfold driver_options_setup. quiet.
  - destruct (truthy browser_executable_path); quiet.
  - by destruct driver_arguments.
Qed.

Lemma quiet_init driver_name driver_executable_path browser_executable_path
    command_executor driver_arguments proxy_enabled proxy_host proxy_port proxy_user
    proxy_pass :
  quiet (__init__ driver_name driver_executable_path browser_executable_path
           command_executor driver_arguments
           proxy_enabled proxy_host proxy_port proxy_user proxy_pass).
Proof.
  unfold __init__. apply quiet_bind; [apply quiet_driver_options_setup |].
  intros [driver_klass driver_options].
  destruct (truthy proxy_enabled).
  - unfold launch_with_proxy.
    destruct (background_js proxy_host proxy_port proxy_user proxy_pass); [quiet | done].
  - destruct (negb (is_None driver_executable_path)); [unfold launch_local; quiet |].
    destruct (negb (is_None command_executor)); [unfold launch_remote; quiet | done].
Qed.

(** Settings that pass the two tests never end in [NotConfigured]. *)
Lemma from_crawler_quiet (settings : Settings) :
  SELENIUM_DRIVER_NAME settings <> PyNone ->
  SELENIUM_DRIVER_EXECUTABLE_PATH settings <> PyNone \/
  SELENIUM_COMMAND_EXECUTOR settings <> PyNone ->
  quiet (from_crawler settings).
Proof.
  intros Hn Hpe. unfold from_crawler.
  destruct (SELENIUM_DRIVER_NAME settings); [done | | |];
    (destruct Hpe as [H | H];
     [ destruct (SELENIUM_DRIVER_EXECUTABLE_PATH settings); [done | | |]
     | destruct (SELENIUM_COMMAND_EXECUTOR settings); [done | | |];
       rewrite andb_false_r ]);
    cbn [is_None andb]; (apply quiet_bind; [apply quiet_init | intros ?; quiet]).
Qed.

(** ** The request that is not a directive request *)

(** C1.  For a request that is not a [SeleniumRequest], [process_request] is
    the program that returns [None] at once: it makes no call at all, so
    against any libraries and from any state it answers [None] and leaves
    the state (the [meta] dicts, the disk, the log of calls made to the
    driver) as it found it. *)
Theorem process_request_passes_other_requests
    (self : SeleniumMiddleware) (request : Request) (spider : pyobj) :
  isinstance_SeleniumRequest request = false ->
  process_request self request spider = Ret None /\
  forall env w, run env (process_request self request spider) w = (Ok None, w).
Proof.
  unfold isinstance_SeleniumRequest, process_request.
  destruct (selenium request); [discriminate | auto].
Qed.

Lemma process_request_passes_other_requests_witness :
  isinstance_SeleniumRequest plain_request = false /\
  run (mock_env true) (process_request {| driver := Some 7%nat |} plain_request 0%nat)
    empty_world = (Ok None, empty_world).
Proof.
  split; [reflexivity |].
  exact (proj2 (process_request_passes_other_requests
                  {| driver := Some 7%nat |} plain_request 0%nat eq_refl)
               (mock_env true) empty_world).
Defined.

(** ** Settings that are refused *)

(** C2.  [from_crawler] raises [NotConfigured] when [SELENIUM_DRIVER_NAME] is
    not set, and when neither [SELENIUM_DRIVER_EXECUTABLE_PATH] nor
    [SELENIUM_COMMAND_EXECUTOR] is: it is then the program that raises at
    once, with no call made, so no driver was constructed and the state is
    unchanged.  With the name and one of the two set, no run of it ends in
    [NotConfigured]. *)
Theorem from_crawler_not_configured (settings : Settings) :
  (SELENIUM_DRIVER_NAME settings = PyNone \/
   (SELENIUM_DRIVER_EXECUTABLE_PATH settings = PyNone /\
    SELENIUM_COMMAND_EXECUTOR settings = PyNone) ->
   exists msg,
     from_crawler settings = Raise (NotConfigured msg) /\
     forall env w, run env (from_crawler settings) w = (Err (NotConfigured msg), w))
  /\
  (SELENIUM_DRIVER_NAME settings <> PyNone ->
   SELENIUM_DRIVER_EXECUTABLE_PATH settings <> PyNone \/
   SELENIUM_COMMAND_EXECUTOR settings <> PyNone ->
   forall env w, is_NotConfigured (run env (from_crawler settings) w).1 = false).
Proof.
  split.
  - unfold from_crawler. intros [Hn | [Hp He]].
    + rewrite Hn. simpl. eauto.
    + rewrite Hp, He. destruct (SELENIUM_DRIVER_NAME settings); simpl; eauto.
  - intros Hn Hpe env w.
    by apply (run_all_ends (fun r => is_NotConfigured r = false)), from_crawler_quiet.
Qed.

Lemma from_crawler_not_configured_witness :
  (exists msg,
     from_crawler settings_without_driver = Raise (NotConfigured msg) /\
     forall env w,
       run env (from_crawler settings_without_driver) w = (Err (NotConfigured msg), w))
  /\
  is_NotConfigured (run (mock_env true) (from_crawler chrome_settings) empty_world).1
    = false.
Proof.
  split.
  - apply (proj1 (from_crawler_not_configured settings_without_driver)).
    left. reflexivity.
  - apply (proj2 (from_crawler_not_configured chrome_settings)).
    + discriminate.
    + left. discriminate.
Defined.

(** ** One branch starts the browser *)

Lemma run_bind_inv {A B : Type} (env : Env) (p : prog A) (f : A -> prog B)
    (w w' : World) (res : result exn B) :
  run env (bind p f) w = (res, w') ->
  (exists e, run env p w = (Err e, w') /\ res = Err e) \/
  (exists a w1, run env p w = (Ok a, w1) /\ run env (f a) w1 = (res, w')).
Proof.
  rewrite run_bind. destruct (run env p w) as [[a | e] w1]; intros H.
  - right. eauto.
  - left. exists e. by inversion H.
Qed.

Lemma all_calls_any {A : Type} (p : prog A) : all_calls (fun _ => True) p.
Proof. induction p; simpl; auto. Qed.

Lemma run_log {A : Type} (env : Env) (p : prog A) (w : World) :
  exists evs, log (run env p w).2 = log w ++ evs.
Proof.
  destruct (run_all_calls (fun _ => True) env p w (all_calls_any p)) as (evs & H & _).
  eauto.
Qed.

Ltac calls :=
  repeat first
    [ apply all_calls_call; intros ?; reflexivity
    | apply all_calls_bind; [| intros ?]
    | apply all_calls_for_each; intros ?
    | apply all_calls_finally
    | match goal with
      | |- all_calls _ (if ?b then _ else _) => destruct b
      | |- all_calls _ (match ?x with _ => _ end) => destruct x
      | |- all_calls _ (self_driver _) => unfold self_driver
      | |- all_calls _ (encode _) => unfold encode
      | |- all_calls _ (iterate _) => unfold iterate
      end
    | done ].

Lemma setup_launches_nothing driver_name browser_executable_path driver_arguments :
  all_calls (fun e => is_launch e = false)
    (driver_options_setup driver_name browser_executable_path driver_arguments).
Proof.
  unfold driver_options_setup. calls.
Qed.

Lemma counted_run {A : Type} (c : event -> bool) (Q : nat -> result exn A -> Prop)
    (env : Env) (p : prog A) (w : World) :
  (forall X (o : op X) r, internal o <> None -> c (Event o r) = false) ->
  counted c Q p ->
  exists evs,
    log (run env p w).2 = log w ++ evs /\
    Q (length (List.filter c evs)) (run env p w).1.
Proof.
  intros Hint. revert Q w. induction p as [a | e | X o k IH]; intros Q w Hp; simpl.
  - exists []. by rewrite app_nil_r.
  - exists []. by rewrite app_nil_r.
  - assert (Hs : (log (step env o w).2 = log w /\ c (Event o (step env o w).1) = false) \/
                 log (step env o w).2 = log w ++ [Event o (step env o w).1]).
    { unfold step. destruct (internal o) as [[x f] |] eqn:Ho; simpl; [left | by right].
      split; [| apply Hint; congruence].
      destruct o; simpl in Ho; try discriminate; by injection Ho as _ <-. }
    destruct (step env o w) as [r w'] eqn:E. simpl in Hs.
    destruct (IH r _ w' (Hp r)) as (evs & Hl & HQ).
    destruct Hs as [[Hs Hc] | Hs]; rewrite Hs in Hl.
    + exists evs. split; [done |]. by rewrite Hc in HQ.
    + exists (Event o r :: evs). split; [by rewrite Hl, <- app_assoc |].
      simpl. by destruct (c (Event o r)).
Qed.

Lemma counted_mono {A : Type} (c : event -> bool) (Q1 Q2 : nat -> result exn A -> Prop)
    (p : prog A) :
  (forall n r, Q1 n r -> Q2 n r) -> counted c Q1 p -> counted c Q2 p.
Proof.
  revert Q1 Q2. induction p as [a | e | X o k IH]; intros Q1 Q2 HQ Hp; simpl in *; auto.
  intros r. eapply IH; [| apply Hp]. intros n res. apply HQ.
Qed.

Lemma counted_bind {A B : Type} (c : event -> bool) (Q : nat -> result exn B -> Prop)
    (p : prog A) (f : A -> prog B) :
  counted c (fun n r =>
               match r with
               | Ok a => counted c (fun m => Q (n + m)%nat) (f a)
               | Err e => Q n (Err e)
               end) p ->
  counted c Q (bind p f).
Proof.
  revert Q. induction p as [a | e | X o k IH]; intros Q Hp; simpl in *.
  - done.
  - done.
  - intros r. apply IH. eapply counted_mono; [| exact (Hp r)].
    intros n [a | e]; simpl; [| done].
    apply counted_mono. intros m res. by rewrite Nat.add_assoc.
Qed.

Lemma counted_silent_bind {A B : Type} (c : event -> bool)
    (Q : nat -> result exn B -> Prop) (p : prog A) (f : A -> prog B) :
  all_calls (fun e => c e = false) p ->
  (forall a, counted c Q (f a)) ->
  (forall e, Q 0%nat (Err e)) ->
  counted c Q (bind p f).
Proof.
  intros Hp Hf He. induction p as [a | e | X o k IH]; simpl; auto.
  intros r. destruct (Hp r) as [Hc Hk]. rewrite Hc. simpl. by apply IH.
Qed.

Lemma from_crawler_configured (settings : Settings) :
  SELENIUM_DRIVER_NAME settings <> PyNone ->
  SELENIUM_DRIVER_EXECUTABLE_PATH settings <> PyNone \/
  SELENIUM_COMMAND_EXECUTOR settings <> PyNone ->
  from_crawler settings =
  (middleware <- __init__ (SELENIUM_DRIVER_NAME settings)
                   (SELENIUM_DRIVER_EXECUTABLE_PATH settings)
                   (SELENIUM_BROWSER_EXECUTABLE_PATH settings)
                   (SELENIUM_COMMAND_EXECUTOR settings)
                   (SELENIUM_DRIVER_ARGUMENTS settings)
                   (SELENIUM_PROXY_ENABLED settings)
                   (SELENIUM_PROXY_HOST settings) (SELENIUM_PROXY_PORT settings)
                   (SELENIUM_PROXY_USER settings) (SELENIUM_PROXY_PASS settings);;
   call (signals_connect middleware "spider_closed");;
   Ret middleware).
Proof.
  intros Hn Hpe. unfold from_crawler.
  destruct (SELENIUM_DRIVER_NAME settings); [done | | |];
    (destruct Hpe as [H | H];
     [ destruct (SELENIUM_DRIVER_EXECUTABLE_PATH settings); [done | | |]
     | destruct (SELENIUM_COMMAND_EXECUTOR settings); [done | | |];
       cbn [is_None]; rewrite andb_false_r ]);
    reflexivity.
Qed.

Lemma validated_branch (proxy_enabled driver_executable_path command_executor : pyval) :
  driver_executable_path <> PyNone \/ command_executor <> PyNone ->
  exists b,
    launch_branch proxy_enabled driver_executable_path command_executor = Some b.
Proof.
  intros H. unfold launch_branch.
  destruct (truthy proxy_enabled); [eauto |].
  destruct driver_executable_path; simpl; eauto.
  destruct command_executor; simpl; eauto.
  by destruct H.
Qed.

Lemma init_runs_branch (b : launch) (settings : Settings) (env : Env) (w : World) :
  launch_branch (SELENIUM_PROXY_ENABLED settings)
    (SELENIUM_DRIVER_EXECUTABLE_PATH settings)
    (SELENIUM_COMMAND_EXECUTOR settings) = Some b ->
  run env
    (middleware <- __init__ (SELENIUM_DRIVER_NAME settings)
                     (SELENIUM_DRIVER_EXECUTABLE_PATH settings)
                     (SELENIUM_BROWSER_EXECUTABLE_PATH settings)
                     (SELENIUM_COMMAND_EXECUTOR settings)
                     (SELENIUM_DRIVER_ARGUMENTS settings)
                     (SELENIUM_PROXY_ENABLED settings)
                     (SELENIUM_PROXY_HOST settings) (SELENIUM_PROXY_PORT settings)
                     (SELENIUM_PROXY_USER settings) (SELENIUM_PROXY_PASS settings);;
     call (signals_connect middleware "spider_closed");;
     Ret middleware) w =
  run env (construct_with b settings) w.
Proof.
  intros Hb. unfold __init__, construct_with. rewrite !run_bind.
  destruct (run env (driver_options_setup _ _ _) w) as [[[klass options] | e] w1];
    [| reflexivity].
  rewrite run_bind. unfold launch_branch in Hb.
  destruct (truthy (SELENIUM_PROXY_ENABLED settings)).
  { by injection Hb as <-. }
  destruct (negb (is_None (SELENIUM_DRIVER_EXECUTABLE_PATH settings))).
  { by injection Hb as <-. }
  destruct (negb (is_None (SELENIUM_COMMAND_EXECUTOR settings))); [| done].
  by injection Hb as <-.
Qed.

Lemma construct_with_launches_once (b : launch) (settings : Settings) :
  counted is_launch
    (fun n r => (n <= 1)%nat /\
                forall middleware, r = Ok middleware ->
                  n = 1%nat /\ driver middleware <> None)
    (construct_with b settings).
Proof.
  unfold construct_with.
  apply counted_silent_bind;
    [apply setup_launches_nothing | | intros e; split; [lia | done]].
  intros [klass options]. destruct b; cbn [start_browser fst snd].
  - unfold launch_with_proxy.
    destruct (background_js _ _ _ _); simpl; [| split; [lia | done]].
    repeat (intros [? | ?]; simpl); split; first [lia | done | intros ? [= <-]; done].
  - repeat (intros [? | ?]; simpl); split; first [lia | done | intros ? [= <-]; done].
  - repeat (intros [? | ?]; simpl); split; first [lia | done | intros ? [= <-]; done].
Qed.

(** C3.  Settings that pass the two tests of [from_crawler] select exactly
    one launch branch: the proxied local launch whenever the proxy flag is
    on (with or without a local path), else the plain local launch if the
    driver path is set, else the remote launch.  Construction is then the
    set-up of the options followed by the lines of that branch and no other,
    and in every run of it at most one browser is started, exactly one in
    every run that returns the middleware. *)
Theorem from_crawler_takes_one_branch (settings : Settings) :
  SELENIUM_DRIVER_NAME settings <> PyNone ->
  SELENIUM_DRIVER_EXECUTABLE_PATH settings <> PyNone \/
  SELENIUM_COMMAND_EXECUTOR settings <> PyNone ->
  exists b,
    launch_branch (SELENIUM_PROXY_ENABLED settings)
      (SELENIUM_DRIVER_EXECUTABLE_PATH settings)
      (SELENIUM_COMMAND_EXECUTOR settings) = Some b /\
    (truthy (SELENIUM_PROXY_ENABLED settings) = true -> b = WithProxy) /\
    (truthy (SELENIUM_PROXY_ENABLED settings) = false ->
     b = if is_None (SELENIUM_DRIVER_EXECUTABLE_PATH settings) then Remote else Local) /\
    forall env w,
      run env (from_crawler settings) w = run env (construct_with b settings) w /\
      exists evs,
        log (run env (from_crawler settings) w).2 = log w ++ evs /\
        (length (List.filter is_launch evs) <= 1)%nat /\
        forall middleware,
          (run env (from_crawler settings) w).1 = Ok middleware ->
          length (List.filter is_launch evs) = 1%nat /\ driver middleware <> None.
Proof.
  intros Hn Hpe.
  destruct (validated_branch (SELENIUM_PROXY_ENABLED settings) _ _ Hpe) as [b Hb].
  exists b. split; [done |].
  split.
  { intros Ht. unfold launch_branch in Hb. rewrite Ht in Hb. by injection Hb. }
  split.
  { intros Ht. unfold launch_branch in Hb. rewrite Ht in Hb.
    destruct (is_None (SELENIUM_DRIVER_EXECUTABLE_PATH settings)); simpl in Hb.
    - destruct (negb (is_None (SELENIUM_COMMAND_EXECUTOR settings))); [| done].
      by injection Hb.
    - by injection Hb. }
  intros env w.
  assert (Hrun : run env (from_crawler settings) w = run env (construct_with b settings) w).
  { rewrite (from_crawler_configured settings Hn Hpe). by apply init_runs_branch. }
  split; [done |]. rewrite Hrun.
  destruct (counted_run is_launch _ env _ w
              ltac:(intros X o r; destruct o; simpl; congruence)
              (construct_with_launches_once b settings)) as (evs & Hl & Hle & Hok).
  eauto.
Qed.

Lemma from_crawler_takes_one_branch_witness :
  exists b,
    launch_branch (SELENIUM_PROXY_ENABLED proxy_settings)
      (SELENIUM_DRIVER_EXECUTABLE_PATH proxy_settings)
      (SELENIUM_COMMAND_EXECUTOR proxy_settings) = Some b /\
    (truthy (SELENIUM_PROXY_ENABLED proxy_settings) = true -> b = WithProxy) /\
    (truthy (SELENIUM_PROXY_ENABLED proxy_settings) = false ->
     b = if is_None (SELENIUM_DRIVER_EXECUTABLE_PATH proxy_settings)
         then Remote else Local) /\
    forall env w,
      run env (from_crawler proxy_settings) w =
      run env (construct_with b proxy_settings) w /\
      exists evs,
        log (run env (from_crawler proxy_settings) w).2 = log w ++ evs /\
        (length (List.filter is_launch evs) <= 1)%nat /\
        forall middleware,
          (run env (from_crawler proxy_settings) w).1 = Ok middleware ->
          length (List.filter is_launch evs) = 1%nat /\ driver middleware <> None.
Proof.
  apply (from_crawler_takes_one_branch proxy_settings).
  - discriminate.
  - left. discriminate.
Defined.

(** The three branches, each on settings that select it. *)
Example launch_branch_examples :
  launch_branch (PyBool true) (PyStr "/usr/bin/chromedriver") PyNone = Some WithProxy /\
  launch_branch (PyBool true) PyNone (PyStr "http://hub:4444/wd/hub") = Some WithProxy /\
  launch_branch PyNone (PyStr "/usr/bin/chromedriver") (PyStr "http://hub:4444/wd/hub")
    = Some Local /\
  launch_branch (PyBool false) PyNone (PyStr "http://hub:4444/wd/hub") = Some Remote /\
  launch_branch PyNone PyNone PyNone = None.
Proof. repeat split. Qed.

(** ** The proxy extension on disk *)

(** Formatting the background script puts each argument, as it is, between
    the pieces of the template. *)
Lemma percent_format_background_js (a b c d : string) :
  percent_format background_js_template [a; b; c; d] =
  Some (interleave (literal_pieces background_js_template) [a; b; c; d]).
Proof. vm_compute. reflexivity. Qed.

Example background_js_template_pieces :
  length (literal_pieces background_js_template) = 5%nat.
Proof. vm_compute. reflexivity. Qed.

Ltac answer H :=
  match type of H with
  | context [match ?env ?X ?o ?l with Ok _ => _ | Err _ => _ end] =>
      let E := fresh "E" in
      destruct (env X o l) eqn:E; simpl in H; try discriminate H
  end.

(** The archive that a proxied construction which returns has written. *)
Lemma init_with_proxy_files (env : Env) (w w' : World)
    (driver_name driver_executable_path browser_executable_path command_executor : pyval)
    (driver_arguments : option (list string))
    (proxy_enabled proxy_host proxy_port proxy_user proxy_pass : pyval)
    (middleware : SeleniumMiddleware) :
  truthy proxy_enabled = true ->
  run env (__init__ driver_name driver_executable_path browser_executable_path
             command_executor driver_arguments
             proxy_enabled proxy_host proxy_port proxy_user proxy_pass) w
    = (Ok middleware, w') ->
  exists js,
    files w' !! "proxy_auth_plugin.zip" =
      Some [("manifest.json", manifest_json); ("background.js", js)] /\
    background_js proxy_host proxy_port proxy_user proxy_pass = Some js /\
    js = interleave (literal_pieces background_js_template)
           [py_str proxy_host; py_str proxy_port; py_str proxy_user; py_str proxy_pass].
Proof.
  intros Hproxy Hrun. unfold __init__ in Hrun.
  apply run_bind_inv in Hrun as [(e & _ & [=]) | ([klass options] & w1 & _ & Hrun)].
  rewrite Hproxy in Hrun. unfold launch_with_proxy in Hrun.
  pose proof (percent_format_background_js (py_str proxy_host) (py_str proxy_port)
                (py_str proxy_user) (py_str proxy_pass)) as Hjs.
  fold (background_js proxy_host proxy_port proxy_user proxy_pass) in Hjs.
  rewrite Hjs in Hrun. exists (interleave (literal_pieces background_js_template)
    [py_str proxy_host; py_str proxy_port; py_str proxy_user; py_str proxy_pass]).
  split; [| done].
  set (js := interleave _ _) in *. clearbody js. clear Hjs.
  simpl in Hrun. repeat answer Hrun.
  injection Hrun as _ <-. simpl.
  rewrite lookup_insert_eq. f_equal. simpl.
  rewrite lookup_insert_eq. simpl.
  by rewrite lookup_insert_eq.
Qed.

(** C4.  A construction with the proxy flag on that returns the middleware
    has left in the working directory the archive [proxy_auth_plugin.zip]
    with two entries and no more, [manifest.json] and then [background.js];
    the script is the template with [str] of the proxy host, port, user and
    password, in this order, where its four [%s] stand, so a setting that is
    a string is there character for character. *)
Theorem init_writes_proxy_plugin (env : Env) (w w' : World)
    (driver_name driver_executable_path browser_executable_path command_executor : pyval)
    (driver_arguments : option (list string))
    (proxy_enabled proxy_host proxy_port proxy_user proxy_pass : pyval)
    (middleware : SeleniumMiddleware) :
  truthy proxy_enabled = true ->
  run env (__init__ driver_name driver_executable_path browser_executable_path
             command_executor driver_arguments
             proxy_enabled proxy_host proxy_port proxy_user proxy_pass) w
    = (Ok middleware, w') ->
  exists js,
    files w' !! "proxy_auth_plugin.zip" =
      Some [("manifest.json", manifest_json); ("background.js", js)] /\
    background_js proxy_host proxy_port proxy_user proxy_pass = Some js /\
    js = interleave (literal_pieces background_js_template)
           [py_str proxy_host; py_str proxy_port; py_str proxy_user; py_str proxy_pass] /\
    forall s, py_str (PyStr s) = s.
Proof.
  intros Hproxy Hrun.
  destruct (init_with_proxy_files _ _ _ _ _ _ _ _ _ _ _ _ _ _ Hproxy Hrun)
    as (js & Hf & Hb & Hjs).
  exists js. auto.
Qed.

Lemma init_writes_proxy_plugin_witness :
  exists js,
    files (run (mock_env true)
             (__init__ (PyStr "chrome") (PyStr "/usr/bin/chromedriver") PyNone PyNone
                (Some ["--headless"]) (PyBool true)
                (PyStr "proxy.example") (PyInt 8080) (PyStr "scraper") (PyStr "s3cret"))
             empty_world).2 !! "proxy_auth_plugin.zip" =
      Some [("manifest.json", manifest_json); ("background.js", js)] /\
    background_js (PyStr "proxy.example") (PyInt 8080) (PyStr "scraper") (PyStr "s3cret")
      = Some js /\
    js = interleave (literal_pieces background_js_template)
           [py_str (PyStr "proxy.example"); py_str (PyInt 8080);
            py_str (PyStr "scraper"); py_str (PyStr "s3cret")] /\
    forall s, py_str (PyStr s) = s.
Proof.
  apply (init_writes_proxy_plugin (mock_env true) empty_world _
           (PyStr "chrome") (PyStr "/usr/bin/chromedriver") PyNone PyNone
           (Some ["--headless"]) (PyBool true)
           (PyStr "proxy.example") (PyInt 8080) (PyStr "scraper") (PyStr "s3cret")
           {| driver := Some 11%nat |}).
  - reflexivity.
  - vm_compute. reflexivity.
Defined.

(** The four fields of the script for these settings. *)
Example background_js_fields :
  match background_js (PyStr "proxy.example") (PyInt 8080) (PyStr "scraper")
          (PyStr "s3cret") with
  | Some js =>
      String.index 0 "host: 'proxy.example'," js <> None /\
      String.index 0 "port: parseInt(8080)" js <> None /\
      String.index 0 "username: 'scraper'," js <> None /\
      String.index 0 "password: 's3cret'" js <> None
  | None => False
  end.
Proof. vm_compute. repeat split; discriminate. Qed.

(** ** Processing a directive request *)

Lemma run_frame {A : Type} (env : Env) (p : prog A) (w : World) :
  all_calls (fun e => writes_state e = false) p ->
  metas (run env p w).2 = metas w /\ files (run env p w).2 = files w.
Proof.
  intros Hp.
  apply (run_invariant (fun w' => metas w' = metas w /\ files w' = files w)
           (fun e => writes_state e = false) env p w); [| done | done].
  intros X o w0 Hc [Hm Hf]. destruct o; simpl in *; try done.
  all: destruct (env _ _ _); done.
Qed.

(** A call to a library, as a step of a run. *)
Lemma run_call_bind {X A : Type} (env : Env) (o : op X) (f : X -> prog A) (w : World) :
  internal o = None ->
  run env (x <- call o;; f x) w =
  let r := env X o (log w) in
  let w1 := {| metas := metas w;
               files := match r with Ok _ => on_disk o (files w) | Err _ => files w end;
               log := log w ++ [Event o r] |} in
  match r with
  | Ok x => run env (f x) w1
  | Err e => (Err (Lib e), w1)
  end.
Proof.
  intros Ho. simpl. unfold step. rewrite Ho. simpl. by destruct (env X o (log w)).
Qed.

Lemma cookies_calls (C : event -> Prop) (self : SeleniumMiddleware)
    (jar : list (string * string)) :
  (forall d name value r, C (Event (driver_add_cookie d name value) r)) ->
  all_calls C
    (for_each jar (fun cookie =>
       d <- self_driver self;;
       call (driver_add_cookie d cookie.1 cookie.2))).
Proof.
  intros HC. apply all_calls_for_each. intros cookie.
  unfold self_driver. destruct (driver self); simpl; [| done].
  intros r. split; [apply HC | by destruct r].
Qed.

Lemma run_self_driver {A : Type} (env : Env) (self : SeleniumMiddleware) (d : pyobj)
    (f : pyobj -> prog A) (w : World) :
  driver self = Some d ->
  run env (x <- self_driver self;; f x) w = run env (f d) w.
Proof. intros H. unfold self_driver. by rewrite H. Qed.

Lemma run_call_external {X : Type} (env : Env) (o : op X) (w : World) :
  internal o = None ->
  run env (call o) w =
  let r := env X o (log w) in
  (match r with Ok x => Ok x | Err e => Err (Lib e) end,
   {| metas := metas w;
      files := match r with Ok _ => on_disk o (files w) | Err _ => files w end;
      log := log w ++ [Event o r] |}).
Proof.
  intros Ho. simpl. unfold step. rewrite Ho. simpl. by destruct (env X o (log w)).
Qed.


Lemma run_meta_update {A : Type} (env : Env) (request : nat)
    (items : list (string * metaval)) (f : prog A) (w : World) :
  run env (call (meta_update request items);; f) w =
  run env f {| metas := <[request := dict_update (meta_of w request) items]> (metas w);
               files := files w; log := log w |}.
Proof. reflexivity. Qed.

Lemma run_meta_setitem (env : Env) (request : nat) (key : string) (v : metaval)
    (w : World) :
  run env (call (meta_setitem request key v)) w =
  (Ok tt, {| metas := <[request := <[key := v]> (meta_of w request)]> (metas w);
             files := files w; log := log w |}).
Proof. reflexivity. Qed.


Lemma run_frame_inv {A : Type} (env : Env) (p : prog A) (w w' : World)
    (res : result exn A) :
  all_calls (fun e => writes_state e = false) p ->
  run env p w = (res, w') ->
  metas w' = metas w /\ files w' = files w /\ exists evs, log w' = log w ++ evs.
Proof.
  intros Hp Hrun.
  destruct (run_frame env p w Hp) as [Hm Hf]. destruct (run_log env p w) as [evs Hl].
  rewrite Hrun in Hm, Hf, Hl. eauto.
Qed.

Lemma wait_returns (env : Env) (self : SeleniumMiddleware) (directives : SeleniumRequest)
    (d : pyobj) (w w' : World) :
  driver self = Some d ->
  run env
    match wait_until directives with
    | Some method =>
        d <- self_driver self;;
        call (WebDriverWait_until d (wait_time directives) method)
    | None => Ret tt
    end w = (Ok tt, w') ->
  metas w' = metas w /\ files w' = files w /\
  exists evs,
    log w' = log w ++ evs /\
    forall method, wait_until directives = Some method ->
      In (Event (WebDriverWait_until d (wait_time directives) method) (Ok tt)) evs.
Proof.
  intros Hd H. destruct (wait_until directives) as [method |].
  - rewrite (run_self_driver _ _ d) in H by done.
    rewrite run_call_external in H by done. cbn zeta in H.
    destruct (env _ _ _) as [[] | e] eqn:E; [| discriminate].
    injection H as <-. simpl. do 2 (split; [done |]).
    eexists. split; [done |]. intros m [= <-]. by left.
  - injection H as <-. do 2 (split; [done |]).
    exists []. split; [by rewrite app_nil_r | done].
Qed.

Lemma screenshot_returns (env : Env) (self : SeleniumMiddleware) (request : Request)
    (directives : SeleniumRequest) (d : pyobj) (w w' : World) :
  driver self = Some d ->
  run env
    (if screenshot directives then
       d <- self_driver self;;
       png <- call (get_screenshot_as_png d);;
       call (meta_setitem (request_id request) "screenshot" (MetaBytes png))
     else Ret tt) w = (Ok tt, w') ->
  files w' = files w /\
  exists png evs,
    log w' = log w ++ evs /\
    metas w' =
      (if screenshot directives
       then <[request_id request :=
                <["screenshot" := MetaBytes png]> (meta_of w (request_id request))]>
              (metas w)
       else metas w) /\
    (screenshot directives = true -> In (Event (get_screenshot_as_png d) (Ok png)) evs).
Proof.
  intros Hd H. destruct (screenshot directives).
  - rewrite (run_self_driver _ _ d) in H by done.
    rewrite run_call_bind in H by done. cbn zeta in H.
    destruct (env _ _ _) as [png | e] eqn:E; [| discriminate].
    rewrite run_meta_setitem in H. injection H as <-. simpl.
    split; [done |]. exists png. eexists. split; [done |]. split; [done |].
    intros _. by left.
  - injection H as <-. split; [done |].
    exists [], []. split; [by rewrite app_nil_r | done].
Qed.

Lemma script_calls (C : event -> Prop) (self : SeleniumMiddleware)
    (directives : SeleniumRequest) :
  (forall d code r, C (Event (execute_script d code) r)) ->
  all_calls C
    match truthy_script (script directives) with
    | Some code => d <- self_driver self;; call (execute_script d code)
    | None => Ret tt
    end.
Proof.
  intros HC. destruct (truthy_script (script directives)); [| done].
  unfold self_driver. destruct (driver self); simpl; [| done].
  intros r. split; [apply HC | by destruct r].
Qed.

(** What a run of [process_request] that returns has done, step by step. *)
Lemma process_request_returns (env : Env) (w w' : World) (self : SeleniumMiddleware)
    (request : Request) (spider : pyobj) (directives : SeleniumRequest) (d : pyobj)
    (r : option HtmlResponse) :
  selenium request = Some directives ->
  driver self = Some d ->
  run env (process_request self request spider) w = (Ok r, w') ->
  exists (evs : list event) (png : list byte) (source : list N) (body : list byte)
         (current : string),
    log w' = log w ++ evs ++
             [Event (page_source d) (Ok source); Event (current_url d) (Ok current)] /\
    str_encode source = Some body /\
    r = Some {| response_url := current; response_body := body;
                response_encoding := "utf-8"; response_request := request |} /\
    files w' = files w /\
    metas w' =
      <[request_id request :=
          <["driver" := MetaObj d]>
            (if screenshot directives
             then <["screenshot" := MetaBytes png]> (meta_of w (request_id request))
             else meta_of w (request_id request))]> (metas w) /\
    (screenshot directives = true ->
     In (Event (get_screenshot_as_png d) (Ok png)) evs) /\
    (forall method, wait_until directives = Some method ->
     In (Event (WebDriverWait_until d (wait_time directives) method) (Ok tt)) evs).
Proof.
  intros Hsel Hd H. unfold process_request in H. rewrite Hsel in H.
  rewrite (run_self_driver _ _ d) in H by done.
  rewrite run_call_bind in H by done. cbn zeta in H.
  destruct (env unit (driver_get d (url request)) (log w)) as [[] | e0] eqn:Eget;
    [| discriminate].
  cbn [on_disk] in H.
  apply run_bind_inv in H as [(e & _ & [=]) | ([] & w2 & Hcookies & H)].
  apply run_bind_inv in H as [(e & _ & [=]) | ([] & w3 & Hwait & H)].
  apply run_bind_inv in H as [(e & _ & [=]) | ([] & w4 & Hshot & H)].
  apply run_bind_inv in H as [(e & _ & [=]) | ([] & w5 & Hscript & H)].
  rewrite (run_self_driver _ _ d) in H by done.
  rewrite run_call_bind in H by done. cbn zeta in H.
  destruct (env _ (page_source d) (log w5)) as [source | e0] eqn:Esource; [| discriminate].
  cbn [on_disk] in H.
  apply run_bind_inv in H as [(e & _ & [=]) | (body & w6 & Hbody & H)].
  rewrite (run_self_driver _ _ d) in H by done.
  rewrite run_meta_update in H.
  rewrite (run_self_driver _ _ d) in H by done.
  rewrite run_call_bind in H by done. cbn zeta in H.
  destruct (env _ (current_url d) _) as [current | e0] eqn:Ecurrent; [| discriminate].
  cbn [on_disk run log metas files] in H.
  destruct (run_frame_inv _ _ _ _ _
              (cookies_calls (fun e => writes_state e = false) self (cookies request)
                 ltac:(done)) Hcookies) as (Hm2 & Hf2 & evs2 & Hl2).
  destruct (wait_returns _ _ _ d _ _ Hd Hwait) as (Hm3 & Hf3 & evs3 & Hl3 & Hin3).
  destruct (screenshot_returns _ _ _ _ d _ _ Hd Hshot) as (Hf4 & png & evs4 & Hl4 & Hm4 & Hin4).
  destruct (run_frame_inv _ _ _ _ _
              (script_calls (fun e => writes_state e = false) self directives
                 ltac:(done)) Hscript) as (Hm5 & Hf5 & evs5 & Hl5).
  unfold encode in Hbody. destruct (str_encode source) as [body' |] eqn:Eenc;
    [| discriminate].
  injection Hbody as -> <-. injection H as <- <-.
  cbn [metas files log] in *.
  assert (Hmeta3 : meta_of w3 (request_id request) = meta_of w (request_id request)).
  { unfold meta_of. by rewrite Hm3, Hm2. }
  exists ([Event (driver_get d (url request)) (Ok tt)] ++ evs2 ++ evs3 ++ evs4 ++ evs5),
    png, source, body, current.
  repeat split.
  - rewrite Hl5, Hl4, Hl3, Hl2. by rewrite <- !app_assoc.
  - done.
  - by rewrite Hf5, Hf4, Hf3, Hf2.
  - unfold meta_of at 1. cbn [metas]. rewrite Hm5, Hm4.
    destruct (screenshot directives).
    + rewrite lookup_insert_eq. cbn [default dict_update foldl fst snd].
      by rewrite insert_insert_eq, Hmeta3, Hm3, Hm2.
    + rewrite Hm3, Hm2. reflexivity.
  - intros Hs. rewrite !in_app_iff. auto 10.
  - intros method Hm. rewrite !in_app_iff. auto 10.
Qed.

Lemma self_driver_missing (env : Env) (self : SeleniumMiddleware) (request : Request)
    (spider : pyobj) (w : World) :
  driver self = None ->
  isinstance_SeleniumRequest request = true ->
  exists msg,
    process_request self request spider = Raise (AttributeError msg) /\
    spider_closed self = Raise (AttributeError msg).
Proof.
  intros Hd Hi. unfold process_request, spider_closed, isinstance_SeleniumRequest in *.
  destruct (selenium request); [| discriminate].
  unfold self_driver. rewrite Hd. simpl. eauto.
Qed.

Lemma propagates_bind {A B : Type} (p : prog A) (f : A -> prog B) :
  propagates p -> (forall a, propagates (f a)) -> propagates (bind p f).
Proof.
  intros Hp Hf. induction p as [a | e | X o k IH]; simpl; [done | done |].
  destruct Hp as [He Hk]. split.
  - intros e. by rewrite He.
  - intros x. by apply IH.
Qed.

Lemma propagates_call {X : Type} (o : op X) : propagates (call o).
Proof. by split. Qed.

Lemma propagates_for_each {X : Type} (l : list X) (body : X -> prog unit) :
  (forall x, propagates (body x)) -> propagates (for_each l body).
Proof.
  intros H. induction l as [| x l IH]; simpl; [done |].
  apply propagates_bind; [apply H | done].
Qed.


Ltac propagates :=
  repeat match goal with
    | |- propagates (Ret _) => exact I
    | |- propagates (Raise _) => exact I
    | |- propagates (call _) => apply propagates_call
    | |- propagates (bind _ _) => apply propagates_bind; [| intros ?]
    | |- propagates (for_each _ _) => apply propagates_for_each; intros ?
    | |- propagates (if ?b then _ else _) => destruct b
    | |- propagates (match ?x with _ => _ end) => destruct x
    | |- propagates (self_driver _) => unfold self_driver
    | |- propagates (encode _) => unfold encode
    end.




(** A condition that never comes true: the request fails with the timeout,
    after the page load, the cookie and the wait, and nothing else. *)
Example process_request_times_out :
  let out := run (mock_env false)
               (process_request {| driver := Some 7%nat |}
                  (selenium_request (Some 3%nat) true) 0%nat) empty_world in
  out.1 = Err (Lib TimeoutException) /\
  log out.2 = [Event (driver_get 7%nat "http://example.com/") (Ok tt);
               Event (driver_add_cookie 7%nat "session" "abc") (Ok tt);
               Event (WebDriverWait_until 7%nat 10 3%nat) (Err TimeoutException)] /\
  metas out.2 = ∅.
Proof. vm_compute. repeat split. Qed.

(** A condition that holds: the wait is the call after the cookie, and the
    screenshot, the script and the two reads follow it. *)
Example process_request_waits_then_goes_on :
  log (run (mock_env true)
         (process_request {| driver := Some 7%nat |}
            (selenium_request (Some 3%nat) true) 0%nat) empty_world).2 =
  [Event (driver_get 7%nat "http://example.com/") (Ok tt);
   Event (driver_add_cookie 7%nat "session" "abc") (Ok tt);
   Event (WebDriverWait_until 7%nat 10 3%nat) (Ok tt);
   Event (get_screenshot_as_png 7%nat) (Ok [x89; x50; x4e; x47]);
   Event (execute_script 7%nat "window.scrollTo(0, 1)") (Ok tt);
   Event (page_source 7%nat) (Ok [60; 112; 62; 233; 60; 47; 112; 62]%N);
   Event (current_url 7%nat) (Ok "http://example.com/")].
Proof. vm_compute. reflexivity. Qed.

Lemma process_request_needs_driver (env : Env) (w w' : World) (self : SeleniumMiddleware)
    (request : Request) (spider : pyobj) (directives : SeleniumRequest)
    (r : option HtmlResponse) :
  selenium request = Some directives ->
  run env (process_request self request spider) w = (Ok r, w') ->
  exists d, driver self = Some d.
Proof.
  intros Hsel H. destruct (driver self) as [d |] eqn:Hd; [eauto |].
  unfold process_request in H. rewrite Hsel in H.
  unfold self_driver in H. rewrite Hd in H. discriminate H.
Qed.

(** C6.  A directive request processed without error: [process_request]
    returns a response (never [None]).  Its URL is what the driver answered
    to [current_url], the last call of the run; its body is [str.encode] of
    what the driver answered to [page_source], the call before, so the page
    source in UTF-8; its encoding is the string [utf-8]; its request is the
    request that was passed in. *)
Theorem process_request_builds_response (env : Env) (w w' : World)
    (self : SeleniumMiddleware) (request : Request) (spider : pyobj)
    (r : option HtmlResponse) :
  isinstance_SeleniumRequest request = true ->
  run env (process_request self request spider) w = (Ok r, w') ->
  exists d evs source current body,
    driver self = Some d /\
    log w' = log w ++ evs ++
             [Event (page_source d) (Ok source); Event (current_url d) (Ok current)] /\
    str_encode source = Some body /\
    r = Some {| response_url := current;
                response_body := body;
                response_encoding := "utf-8";
                response_request := request |}.
Proof.
  unfold isinstance_SeleniumRequest.
  destruct (selenium request) as [directives |] eqn:Hsel; [intros _ H | discriminate].
  destruct (process_request_needs_driver _ _ _ _ _ _ _ _ Hsel H) as [d Hd].
  destruct (process_request_returns _ _ _ _ _ _ _ _ _ Hsel Hd H)
    as (evs & png & source & body & current & Hl & He & Hr & _).
  exists d, evs, source, current, body. auto.
Qed.

Lemma process_request_builds_response_witness :
  exists d evs source current body,
    driver {| driver := Some 7%nat |} = Some d /\
    log (run (mock_env true)
           (process_request {| driver := Some 7%nat |}
              (selenium_request (Some 3%nat) true) 0%nat) empty_world).2 =
      log empty_world ++ evs ++
      [Event (page_source d) (Ok source); Event (current_url d) (Ok current)] /\
    str_encode source = Some body /\
    Some {| response_url := "http://example.com/";
            response_body := [x3c; x70; x3e; xc3; xa9; x3c; x2f; x70; x3e];
            response_encoding := "utf-8";
            response_request := selenium_request (Some 3%nat) true |} =
    Some {| response_url := current;
            response_body := body;
            response_encoding := "utf-8";
            response_request := selenium_request (Some 3%nat) true |}.
Proof.
  apply (process_request_builds_response (mock_env true) empty_world _
           {| driver := Some 7%nat |} (selenium_request (Some 3%nat) true) 0%nat).
  - reflexivity.
  - vm_compute. reflexivity.
Defined.

(** [str.encode] on the four lengths of UTF-8, and on a lone surrogate. *)
Example str_encode_lengths :
  str_encode [0x41; 0xE9; 0x20AC; 0x1F600]%N =
    Some [x41; xc3; xa9; xe2; x82; xac; xf0; x9f; x98; x80] /\
  str_encode [0xD800]%N = None.
Proof. split; reflexivity. Qed.

(** C7.  A directive request processed without error: in the [meta] dict of
    the request, the key [driver] holds the driver of the middleware; the
    key [screenshot] holds the bytes the driver answered to
    [get_screenshot_as_png] if the request asks for a screenshot, and is as
    it was if not; every other key is as it was.  The [meta] dicts of other
    requests and the files on disk are as they were, and the middleware
    object, which [process_request] only reads, has no other place to keep
    anything. *)
Theorem process_request_writes_meta (env : Env) (w w' : World)
    (self : SeleniumMiddleware) (request : Request) (spider : pyobj)
    (directives : SeleniumRequest) (r : option HtmlResponse) :
  selenium request = Some directives ->
  run env (process_request self request spider) w = (Ok r, w') ->
  let old := meta_of w (request_id request) in
  let new := meta_of w' (request_id request) in
  exists d,
    driver self = Some d /\
    new !! "driver" = Some (MetaObj d) /\
    (if screenshot directives
     then exists png evs,
            log w' = log w ++ evs /\
            In (Event (get_screenshot_as_png d) (Ok png)) evs /\
            new !! "screenshot" = Some (MetaBytes png)
     else new !! "screenshot" = old !! "screenshot") /\
    (forall key, key <> "driver" -> key <> "screenshot" -> new !! key = old !! key) /\
    (forall other, other <> request_id request -> metas w' !! other = metas w !! other) /\
    files w' = files w.
Proof.
  intros Hsel H old new.
  destruct (process_request_needs_driver _ _ _ _ _ _ _ _ Hsel H) as [d Hd].
  destruct (process_request_returns _ _ _ _ _ _ _ _ _ Hsel Hd H)
    as (evs & png & source & body & current & Hl & _ & _ & Hf & Hm & Hshot & _).
  exists d. split; [done |].
  assert (Hnew : new = <["driver" := MetaObj d]>
                         (if screenshot directives
                          then <["screenshot" := MetaBytes png]> old else old)).
  { subst new. unfold meta_of at 1. by rewrite Hm, lookup_insert_eq. }
  rewrite Hnew. split; [by rewrite lookup_insert_eq |].
  split; [| split; [| split]].
  - destruct (screenshot directives).
    + exists png. eexists. split; [exact Hl |].
      split; [rewrite !in_app_iff; auto |].
      rewrite lookup_insert_ne by done. by rewrite lookup_insert_eq.
    + by rewrite lookup_insert_ne.
  - intros key Hk1 Hk2. rewrite lookup_insert_ne by done.
    destruct (screenshot directives); [by rewrite lookup_insert_ne | done].
  - intros other Ho. rewrite Hm. by rewrite lookup_insert_ne.
  - done.
Qed.

Lemma process_request_writes_meta_witness :
  let w' := (run (mock_env true)
               (process_request {| driver := Some 7%nat |}
                  (selenium_request (Some 3%nat) true) 0%nat) empty_world).2 in
  let old := meta_of empty_world 2%nat in
  let new := meta_of w' 2%nat in
  exists d,
    Some 7%nat = Some d /\
    new !! "driver" = Some (MetaObj d) /\
    (exists png evs,
       log w' = log empty_world ++ evs /\
       In (Event (get_screenshot_as_png d) (Ok png)) evs /\
       new !! "screenshot" = Some (MetaBytes png)) /\
    (forall key, key <> "driver" -> key <> "screenshot" -> new !! key = old !! key) /\
    (forall other, other <> 2%nat -> metas w' !! other = metas empty_world !! other) /\
    files w' = files empty_world.
Proof.
  apply (process_request_writes_meta (mock_env true) empty_world _
           {| driver := Some 7%nat |} (selenium_request (Some 3%nat) true) 0%nat
           {| wait_time := 10; wait_until := Some 3%nat; screenshot := true;
              script := Some "window.scrollTo(0, 1)" |}
           (Some {| response_url := "http://example.com/";
                    response_body := [x3c; x70; x3e; xc3; xa9; x3c; x2f; x70; x3e];
                    response_encoding := "utf-8";
                    response_request := selenium_request (Some 3%nat) true |})).
  - reflexivity.
  - vm_compute. reflexivity.
Defined.

(** ** Proxy settings are not checked *)

(** C8, as the code has it.  With the proxy flag on, the proxy host, port,
    user and password are not looked at before they are used: settings that
    pass the two tests of [from_crawler] never end in [NotConfigured],
    whichever of the four is missing, and a construction that returns has
    written a [background.js] with [str] of each of the four in it, which
    for a missing one is the text [None]. *)
Theorem from_crawler_proxy_unchecked (settings : Settings) (env : Env) (w : World) :
  SELENIUM_DRIVER_NAME settings <> PyNone ->
  SELENIUM_DRIVER_EXECUTABLE_PATH settings <> PyNone \/
  SELENIUM_COMMAND_EXECUTOR settings <> PyNone ->
  truthy (SELENIUM_PROXY_ENABLED settings) = true ->
  let out := run env (from_crawler settings) w in
  is_NotConfigured out.1 = false /\
  (forall middleware, out.1 = Ok middleware ->
   files out.2 !! "proxy_auth_plugin.zip" =
     Some [("manifest.json", manifest_json);
           ("background.js",
            interleave (literal_pieces background_js_template)
              [py_str (SELENIUM_PROXY_HOST settings);
               py_str (SELENIUM_PROXY_PORT settings);
               py_str (SELENIUM_PROXY_USER settings);
               py_str (SELENIUM_PROXY_PASS settings)])]) /\
  py_str PyNone = "None".
Proof.
  intros Hn Hpe Hproxy out. subst out.
  split; [by apply (run_all_ends (fun r => is_NotConfigured r = false)),
             from_crawler_quiet |].
  split; [| done].
  intros middleware Hok.
  rewrite (from_crawler_configured settings Hn Hpe) in *.
  destruct (run env _ w) as [res w'] eqn:Hrun. simpl in Hok. subst res. simpl.
  apply run_bind_inv in Hrun as [(e & _ & [=]) | (mw & w1 & Hinit & Hrun)].
  destruct (init_with_proxy_files _ _ _ _ _ _ _ _ _ _ _ _ _ _ Hproxy Hinit)
    as (js & Hf & _ & ->).
  rewrite run_call_bind in Hrun by done. cbn zeta in Hrun.
  destruct (env _ _ _); [| discriminate]. by injection Hrun as _ <-.
Qed.

Lemma from_crawler_proxy_unchecked_witness :
  let out := run (mock_env true) (from_crawler proxy_settings) empty_world in
  is_NotConfigured out.1 = false /\
  (forall middleware, out.1 = Ok middleware ->
   files out.2 !! "proxy_auth_plugin.zip" =
     Some [("manifest.json", manifest_json);
           ("background.js",
            interleave (literal_pieces background_js_template)
              [py_str (SELENIUM_PROXY_HOST proxy_settings);
               py_str (SELENIUM_PROXY_PORT proxy_settings);
               py_str (SELENIUM_PROXY_USER proxy_settings);
               py_str (SELENIUM_PROXY_PASS proxy_settings)])]) /\
  py_str PyNone = "None".
Proof.
  apply (from_crawler_proxy_unchecked proxy_settings (mock_env true) empty_world).
  - discriminate.
  - left. discriminate.
  - reflexivity.
Defined.

(** C8, as the spec has it, fails: with the proxy flag on and no proxy host
    set, construction is not refused; it returns the middleware, and the
    script on disk names the host [None]. *)
Lemma proxy_without_host_is_constructed :
  truthy (SELENIUM_PROXY_ENABLED proxy_settings) = true /\
  SELENIUM_PROXY_HOST proxy_settings = PyNone /\
  let out := run (mock_env true) (from_crawler proxy_settings) empty_world in
  out.1 = Ok {| driver := Some 11%nat |} /\
  is_NotConfigured out.1 = false /\
  match files out.2 !! "proxy_auth_plugin.zip" with
  | Some [("manifest.json", _); ("background.js", js)] =>
      String.index 0 "host: 'None'," js <> None
  | _ => False
  end.
Proof. vm_compute. repeat split; discriminate. Qed.

(** ** Settings without [SELENIUM_DRIVER_ARGUMENTS] *)

Lemma all_ends_bind_any {A B : Type} (Q : result exn B -> Prop) (p : prog A)
    (f : A -> prog B) :
  (forall a, all_ends Q (f a)) -> (forall e, Q (Err e)) -> all_ends Q (bind p f).
Proof. intros Hf He. induction p as [a | e | X o k IH]; simpl; auto. Qed.

(** With the arguments not set, no run of [from_crawler] returns a
    middleware: the [for] loop of line 67 raises on [None]. *)
Lemma no_arguments_no_middleware (settings : Settings) (env : Env) (w : World) :
  SELENIUM_DRIVER_ARGUMENTS settings = None ->
  forall middleware, (run env (from_crawler settings) w).1 <> Ok middleware.
Proof.
  intros Hargs middleware.
  apply (run_all_ends (fun r => r <> Ok middleware)).
  pose (failed := fun (A : Type) (r : result exn A) =>
                    match r with Ok _ => False | Err _ => True end).
  unfold from_crawler.
  destruct (is_None (SELENIUM_DRIVER_NAME settings)); [done |].
  destruct (_ && _); [done |].
  apply (all_ends_bind (failed _)); [| by intros ? [] | done].
  unfold __init__. apply (all_ends_bind (failed _)); [| by intros ? [] | done].
  unfold driver_options_setup. rewrite Hargs.
  do 6 (apply all_ends_bind_any; [intros ? | done]). done.
Qed.

(** C9, on the code.  Settings for a local Chrome that leave
    [SELENIUM_DRIVER_ARGUMENTS] out pass the two tests of [from_crawler], and
    construction then fails: with libraries that never fail it raises the
    [TypeError] of iterating [None], and with no libraries does it return a
    middleware. *)
Theorem from_crawler_without_arguments_fails :
  SELENIUM_DRIVER_NAME settings_without_arguments <> PyNone /\
  SELENIUM_DRIVER_EXECUTABLE_PATH settings_without_arguments <> PyNone /\
  SELENIUM_DRIVER_ARGUMENTS settings_without_arguments = None /\
  (run (mock_env true) (from_crawler settings_without_arguments) empty_world).1 =
    Err (TypeError "'NoneType' object is not iterable") /\
  forall env w middleware,
    (run env (from_crawler settings_without_arguments) w).1 <> Ok middleware.
Proof.
  do 3 (split; [done |]). split; [vm_compute; reflexivity |].
  intros env w. by apply no_arguments_no_middleware.
Qed.

(** The same settings with an empty list of arguments are accepted. *)
Example from_crawler_with_no_arguments :
  (run (mock_env true)
     (from_crawler
        {| SELENIUM_DRIVER_NAME := PyStr "chrome";
           SELENIUM_DRIVER_EXECUTABLE_PATH := PyStr "/usr/bin/chromedriver";
           SELENIUM_BROWSER_EXECUTABLE_PATH := PyNone;
           SELENIUM_COMMAND_EXECUTOR := PyNone;
           SELENIUM_DRIVER_ARGUMENTS := Some [];
           SELENIUM_PROXY_ENABLED := PyNone;
           SELENIUM_PROXY_HOST := PyNone;
           SELENIUM_PROXY_PORT := PyNone;
           SELENIUM_PROXY_USER := PyNone;
           SELENIUM_PROXY_PASS := PyNone |}) empty_world).1 =
  Ok {| driver := Some 5%nat |}.
Proof. vm_compute. reflexivity. Qed.

(** ** A middleware without a driver *)

(** C10.  [__init__] called with a proxy flag that is not truthy, no driver
    path and no command executor: none of the three branches is taken.  The
    constructor does what the set-up of the options does and then returns,
    raising nothing of its own and starting no browser, and the middleware it
    returns has no [driver] attribute.  The error comes at the first use of
    the attribute: [process_request] on a directive request and
    [spider_closed] raise [AttributeError]. *)
Theorem init_without_launch (env : Env) (w : World)
    (driver_name browser_executable_path : pyval)
    (driver_arguments : option (list string))
    (proxy_enabled proxy_host proxy_port proxy_user proxy_pass : pyval) :
  truthy proxy_enabled = false ->
  let init := __init__ driver_name PyNone browser_executable_path PyNone
                driver_arguments proxy_enabled proxy_host proxy_port proxy_user
                proxy_pass in
  launch_branch proxy_enabled PyNone PyNone = None /\
  run env init w =
    match run env (driver_options_setup driver_name browser_executable_path
                     driver_arguments) w with
    | (Ok _, w1) => (Ok {| driver := None |}, w1)
    | (Err e, w1) => (Err e, w1)
    end /\
  (exists evs,
     log (run env init w).2 = log w ++ evs /\
     Forall (fun e => is_launch e = false) evs) /\
  (forall middleware,
     (run env init w).1 = Ok middleware ->
     driver middleware = None /\
     (forall request spider,
        isinstance_SeleniumRequest request = true ->
        exists msg,
          process_request middleware request spider = Raise (AttributeError msg)) /\
     (exists msg, spider_closed middleware = Raise (AttributeError msg))).
Proof.
  intros Hproxy init.
  assert (Hrun : run env init w =
    match run env (driver_options_setup driver_name browser_executable_path
                     driver_arguments) w with
    | (Ok _, w1) => (Ok {| driver := None |}, w1)
    | (Err e, w1) => (Err e, w1)
    end).
  { subst init. unfold __init__. rewrite run_bind, Hproxy.
    by destruct (run env (driver_options_setup _ _ _) w)
      as [[[klass options] | e] w1]. }
  split; [unfold launch_branch; by rewrite Hproxy |].
  split; [done |]. split.
  - rewrite Hrun.
    destruct (run_all_calls (fun e => is_launch e = false) env _ w
                (setup_launches_nothing driver_name browser_executable_path
                   driver_arguments)) as (evs & Hl & Hn).
    exists evs.
    by destruct (run env (driver_options_setup _ _ _) w) as [[? | ?] ?].
  - intros middleware Hok. rewrite Hrun in Hok. clear Hrun.
    destruct (run env (driver_options_setup _ _ _) w) as [[? | ?] ?];
      simpl in Hok; [| discriminate].
    injection Hok as <-. split; [done |]. split.
    + intros request spider Hi.
      destruct (self_driver_missing env {| driver := None |} request spider w
                  eq_refl Hi) as (msg & H1 & _).
      eauto.
    + unfold spider_closed. simpl. eauto.
Qed.

Lemma init_without_launch_witness :
  let init := __init__ (PyStr "chrome") PyNone PyNone PyNone (Some ["--headless"])
                (PyBool false) PyNone PyNone PyNone PyNone in
  launch_branch (PyBool false) PyNone PyNone = None /\
  run (mock_env true) init empty_world =
    match run (mock_env true)
            (driver_options_setup (PyStr "chrome") PyNone (Some ["--headless"]))
            empty_world with
    | (Ok _, w1) => (Ok {| driver := None |}, w1)
    | (Err e, w1) => (Err e, w1)
    end /\
  (exists evs,
     log (run (mock_env true) init empty_world).2 = log empty_world ++ evs /\
     Forall (fun e => is_launch e = false) evs) /\
  (forall middleware,
     (run (mock_env true) init empty_world).1 = Ok middleware ->
     driver middleware = None /\
     (forall request spider,
        isinstance_SeleniumRequest request = true ->
        exists msg,
          process_request middleware request spider = Raise (AttributeError msg)) /\
     (exists msg, spider_closed middleware = Raise (AttributeError msg))).
Proof.
  exact (init_without_launch (mock_env true) empty_world (PyStr "chrome") PyNone
           (Some ["--headless"]) (PyBool false) PyNone PyNone PyNone PyNone eq_refl).
Defined.

(** With the stand-in libraries the constructor returns, and what it returns
    fails at first use. *)
Example init_without_launch_returns :
  (run (mock_env true)
     (__init__ (PyStr "chrome") PyNone PyNone PyNone (Some ["--headless"])
        (PyBool false) PyNone PyNone PyNone PyNone) empty_world).1 =
    Ok {| driver := None |} /\
  (run (mock_env true) (spider_closed {| driver := None |}) empty_world).1 =
    Err (AttributeError "'SeleniumMiddleware' object has no attribute 'driver'").
Proof. split; vm_compute; reflexivity. Qed.
